(** * dbquery: querying the LSST DM simulation galaxy catalog

    A shallow embedding of [dbquery.py].  The script parses its command
    line, opens the output file, checks the RA/DEC window, builds the
    column list and the stored-procedure call, writes the header, runs
    the query and, for each row, replaces SQL NULLs, clips the row
    against the window and prints it.

    Numbers are IEEE binary64 values, as Python's [float] is; integer
    cells such as [galtileid] and the default [-1] of [--null-sub] are
    carried as the float of the same value.  What the Python runtime and
    the C library supply (the text of a float, the [%f] conversion, the
    power operator) is taken as a parameter of the development.

    A row is the mapping the script uses it as: read by column name,
    compared with [None], assigned in place.  The answers of the file
    system and of the database are inputs of a run.  Writing to the
    opened file, [session.close()] and [engine.dispose()] are taken not
    to fail, and so are the constructors that touch nothing outside the
    process ([sessionmaker], [scoped_session], [MetaData], whose value
    the script never uses).

    Effects are recorded as a trace of events, threaded with the locals
    of [main] through a state and exception monad. *)

From Stdlib Require Import String Ascii List ZArith Floats Bool Lia DecimalString.
From stdpp Require Import gmap strings.
Import ListNotations.

Local Open Scope string_scope.
Local Open Scope list_scope.

(** ** Python string operations used by the script *)

Module PyStr.

(** [p % t] for a pattern holding one [%s] conversion. *)
Fixpoint format_s (p t : string) : string :=
  match p with
  | String "%" (String "s" rest) => t +:+ rest
  | String c rest => String c (format_s rest t)
  | EmptyString => EmptyString
  end.

(** [sep.join(l)]. *)
Definition join (sep : string) (l : list string) : string :=
  String.concat sep l.

(** Iterating over a string yields its one-character substrings. *)
Fixpoint chars (s : string) : list string :=
  match s with
  | EmptyString => []
  | String c rest => String c EmptyString :: chars rest
  end.

(** [s.split(sep)] for a one-character separator: always at least one
    field, empty fields kept. *)
Fixpoint split (sep : ascii) (s : string) : list string :=
  match s with
  | EmptyString => [EmptyString]
  | String c rest =>
      if Ascii.eqb c sep then EmptyString :: split sep rest
      else match split sep rest with
           | field :: fields => String c field :: fields
           | [] => [String c EmptyString]
           end
  end.

(** [s.replace(old, new)] for a non-empty [old]: every non-overlapping
    occurrence, scanning from the left.  [skip] counts the characters of
    a matched occurrence that are still to be dropped. *)
Fixpoint replace_from (old new : string) (skip : nat) (s : string) : string :=
  match s with
  | EmptyString => EmptyString
  | String c rest =>
      match skip with
      | S k => replace_from old new k rest
      | O =>
          if String.prefix old s
          then new +:+ replace_from old new (String.length old - 1) rest
          else String c (replace_from old new 0 rest)
      end
  end.

Definition replace (old new s : string) : string := replace_from old new 0 s.

End PyStr.

(** ** The column builder *)

(** The nested function [addColumns] of [main]. *)
Definition addColumns (patterns types : list string) : string :=
  fold_left
    (fun text p => text +:+ "," +:+ PyStr.join "," (map (fun t => PyStr.format_s p t) types))
    patterns "".

Definition columns : string :=
  "galtileid,ra,dec,redshift"
  +:+ addColumns ["fluxnorm_%s"] ["bulge"; "disk"; "agn"]
  +:+ addColumns ["a_%s"; "b_%s"] ["b"; "d"]
  +:+ addColumns ["pa_%s"] ["bulge"; "disk"]
  +:+ addColumns ["%s_ab"] (PyStr.chars "ugrizy").

Definition column_names : string := PyStr.replace "galtileid," "" columns.

Definition clist : list string := PyStr.split "," columns.

Definition header : string := PyStr.join " " clist.


(** ** Command line, rows, the outside world *)

(** The namespace returned by [parser.parse_args()]. *)
Record args := mkArgs {
  verbose : bool;
  output : string;
  dec_min : float;
  dec_max : float;
  ra_min : float;
  ra_max : float;
  null_sub : float
}.

Definition default_args : args :=
  {| verbose := false; output := "gcat.dat";
     dec_min := (-0.5)%float; dec_max := 0.5%float;
     ra_min := 0%float; ra_max := 1%float;
     null_sub := (-1)%float |}.

(** A result row: column name to value, [None] for SQL NULL.  A column
    the row does not have is absent from the map. *)
Abbreviation row := (gmap string (option float)).

(** What the interpreter and the C library provide. *)
Record runtime := mkRuntime {
  str : float -> string;                    (* [str(x)] *)
  fmt_f : float -> string;                  (* ['%f' % x] *)
  float_pow : float -> Z -> option float    (* [x ** n]; [None]: OverflowError *)
}.

(** What the file system and the database answer. *)
Record world := mkWorld {
  open_ok : string -> bool;                 (* [open(path, 'w')] succeeds *)
  create_engine_ok : bool;                  (* [url.URL] and [create_engine] succeed *)
  fetchall : string -> option (list row)    (* [session.execute(q).fetchall()];
                                               [None]: connection, login or SQL failure *)
}.

(** Text printed on standard output, by print statement. *)
Inductive message :=
| MsgCannotOpen (path : string)
| MsgIOError
| MsgInvalidWindow (RAmin RAmax DECmin DECmax : float)
| MsgUsingQuery (q : string)
| MsgDumped (n : nat) (path : string)
| MsgReplacedNulls (sub : float) (counts : gmap string nat)
| MsgClipped (n : nat).

Inductive event :=
| EvOpen (path : string)         (* output file created or truncated *)
| EvOpenFailed (path : string)
| EvPrint (m : message)
| EvWrite (line : string)        (* [print(line, file=f)] *)
| EvCreateEngine
| EvCreateSession
| EvExecute (q : string)
| EvSessionClose
| EvEngineDispose
| EvClose.                       (* [f.close()] *)

Inductive exn :=
| OverflowError
| KeyError (key : string)
| TypeError
| UnboundLocalError (name : string)
| EngineError
| ExecuteError.

(** ** Effects: a state and exception monad over the locals of [main] *)

Record state := mkState {
  trace : list event;            (* effects so far, oldest first *)
  engine : bool;                 (* the local [engine] is bound *)
  session : bool;                (* the local [session] is bound *)
  nulls : gmap string nat;
  clipCount : nat;
  nrows : nat
}.

Definition init_state : state :=
  {| trace := []; engine := false; session := false;
     nulls := ∅; clipCount := 0; nrows := 0 |}.

Definition M (A : Type) : Type := state -> state * (exn + A).

Definition ret {A} (x : A) : M A := fun s => (s, inr x).

Definition raise {A} (e : exn) : M A := fun s => (s, inl e).

Definition bind {A B} (m : M A) (k : A -> M B) : M B :=
  fun s =>
    match m s with
    | (s1, inl e) => (s1, inl e)
    | (s1, inr x) => k x s1
    end.

Declare Scope py_scope.
Delimit Scope py_scope with py.
Notation "x <- m ;; k" := (bind m (fun x => k))
  (at level 100, m at next level, right associativity) : py_scope.
Notation "m ;; k" := (bind m (fun _ => k))
  (at level 100, right associativity) : py_scope.

(** [try: body finally: fin]: [fin] runs on both exits of [body]; an
    exception raised by [fin] replaces the outcome of [body]. *)
Definition try_finally {A} (body : M A) (fin : M unit) : M A :=
  fun s =>
    match body s with
    | (s1, r) =>
        match fin s1 with
        | (s2, inl e) => (s2, inl e)
        | (s2, inr _) => (s2, r)
        end
    end.

Definition emit (e : event) : M unit :=
  fun s => (mkState (trace s ++ [e]) (engine s) (session s) (nulls s) (clipCount s) (nrows s), inr tt).

Definition print (m : message) : M unit := emit (EvPrint m).

Definition when (b : bool) (m : M unit) : M unit := if b then m else ret tt.

Fixpoint for_each {A} (l : list A) (body : A -> M unit) : M unit :=
  match l with
  | [] => ret tt
  | x :: l' => (body x ;; for_each l' body)%py
  end.

Fixpoint collect {A B} (f : A -> M B) (l : list A) : M (list B) :=
  match l with
  | [] => ret []
  | x :: l' => (y <- f x ;; ys <- collect f l' ;; ret (y :: ys))%py
  end.

Definition modify (f : state -> state) : M unit := fun s => (f s, inr tt).

Definition get {A} (f : state -> A) : M A := fun s => (s, inr (f s)).

Definition set_engine (b : bool) (s : state) : state :=
  mkState (trace s) b (session s) (nulls s) (clipCount s) (nrows s).
Definition set_session (b : bool) (s : state) : state :=
  mkState (trace s) (engine s) b (nulls s) (clipCount s) (nrows s).
Definition set_nulls (m : gmap string nat) (s : state) : state :=
  mkState (trace s) (engine s) (session s) m (clipCount s) (nrows s).
Definition set_clipCount (n : nat) (s : state) : state :=
  mkState (trace s) (engine s) (session s) (nulls s) n (nrows s).
Definition set_nrows (n : nat) (s : state) : state :=
  mkState (trace s) (engine s) (session s) (nulls s) (clipCount s) n.

(** Truth value of a dict: it has an entry. *)
Definition nonempty (m : gmap string nat) : bool := negb (bool_decide (m = ∅)).

(** ** The program *)

Inductive fmt_arg :=
| FloatArg (x : float)
| StrArg (t : string).

Section Program.

Variable rt : runtime.
Variable w : world.

(** [p % (arg, ...)] for patterns made of text, [%f] and [%s]; [None]
    is Python's TypeError (too few arguments, or a string where a
    number is required). *)
Fixpoint format (p : string) (l : list fmt_arg) : option string :=
  match p with
  | String "%" (String "f" rest) =>
      match l with
      | FloatArg x :: l' => option_map (fun t => fmt_f rt x +:+ t) (format rest l')
      | _ => None
      end
  | String "%" (String "s" rest) =>
      match l with
      | StrArg t :: l' => option_map (fun u => t +:+ u) (format rest l')
      | FloatArg x :: l' => option_map (fun u => str rt x +:+ u) (format rest l')
      | [] => None
      end
  | String c rest => option_map (String c) (format rest l)
  | EmptyString => match l with [] => Some EmptyString | _ => None end
  end.

Definition lift {A} (e : exn) (o : option A) : M A :=
  match o with
  | Some x => ret x
  | None => raise e
  end.

(** [row[col]]. *)
Definition getitem (r : row) (col : string) : M (option float) :=
  lift (KeyError col) (r !! col).

(** A cell used as a number; a NULL left in place is a TypeError. *)
Definition number (v : option float) : M float := lift TypeError v.

(** [str(row[col])]. *)
Definition str_cell (v : option float) : string :=
  match v with
  | Some x => str rt x
  | None => "None"
  end.

(** [if col not in nulls: nulls[col] = 0] then [nulls[col] += 1]. *)
Definition count_null (col : string) : M unit :=
  (known <- get (fun s => bool_decide (is_Some (nulls s !! col))) ;;
   when (negb known) (modify (fun s => set_nulls (<[col := 0]> (nulls s)) s)) ;;
   n <- (fun s => lift (KeyError col) (nulls s !! col) s) ;;
   modify (fun s => set_nulls (<[col := n + 1]> (nulls s)) s))%py.

(** The inner loop [for col in clist] of the row loop: NULLs are counted
    and overwritten in the row. *)
Fixpoint sanitize (a : args) (cols : list string) (r : row) : M row :=
  match cols with
  | [] => ret r
  | col :: cols' =>
      (v <- getitem r col ;;
       match v with
       | None => count_null col ;; sanitize a cols' (<[col := Some (null_sub a)]> r)
       | Some _ => sanitize a cols' r
       end)%py
  end.

(** The local [ra] of the row loop after [if ra > 180.: ra -= 360.]. *)
Definition recenter (ra : float) : float :=
  if (180 <? ra)%float then (ra - 360)%float else ra.

Definition outside (a : args) (ra dec : float) : bool :=
  (ra <? ra_min a)%float || (ra_max a <? ra)%float
  || (dec <? dec_min a)%float || (dec_max a <? dec)%float.

(** One iteration of [for row in results]. *)
Definition process_row (a : args) (r : row) : M unit :=
  (r <- sanitize a clist r ;;
   v <- getitem r "ra" ;;
   ra <- number v ;;
   let ra := recenter ra in
   v <- getitem r "dec" ;;
   dec <- number v ;;
   if outside a ra dec then
     modify (fun s => set_clipCount (clipCount s + 1) s)
   else
     cells <- collect (getitem r) clist ;;
     emit (EvWrite (PyStr.join " " (map str_cell cells))) ;;
     modify (fun s => set_nrows (nrows s + 1) s))%py.

Definition pow (x : float) (n : Z) : M float :=
  lift OverflowError (float_pow rt x n).

Definition radius (a : args) : M float :=
  (sq_ra <- pow (ra_max a - ra_min a)%float 2 ;;
   sq_dec <- pow (dec_max a - dec_min a)%float 2 ;;
   ret (60 * 0.5 * sqrt (sq_ra + sq_dec))%float)%py.

Definition query_pattern : string :=
  "GalaxySearchSpecColsConstraint2013 @RaSearch = %f, @DecSearch = %f, @apertureRadius = %f, "
  +:+ "@ColumnNames = '%s', @WhereClause = ''".

Definition query (a : args) (radius : float) : option string :=
  format query_pattern
    [FloatArg (0.5 * (ra_min a + ra_max a))%float;
     FloatArg (0.5 * (dec_min a + dec_max a))%float;
     FloatArg radius;
     StrArg column_names].

Definition create_engine : M unit :=
  if create_engine_ok w
  then (modify (set_engine true) ;; emit EvCreateEngine)%py
  else raise EngineError.

Definition scoped_session : M unit :=
  (modify (set_session true) ;; emit EvCreateSession)%py.

Definition execute (q : string) : M (list row) :=
  (emit (EvExecute q) ;; lift ExecuteError (fetchall w q))%py.

Definition session_close : M unit :=
  (bound <- get session ;;
   if bound then emit EvSessionClose else raise (UnboundLocalError "session"))%py.

Definition engine_dispose : M unit :=
  (bound <- get engine ;;
   if bound then emit EvEngineDispose else raise (UnboundLocalError "engine"))%py.

(** The body of the [try] statement. *)
Definition fetch_and_dump (a : args) (q : string) : M unit :=
  (create_engine ;;
   scoped_session ;;
   results <- execute q ;;
   modify (set_nrows 0) ;;
   for_each results (process_row a) ;;
   when (verbose a)
     (n <- get nrows ;;
      print (MsgDumped n (output a)) ;;
      counts <- get nulls ;;
      when (nonempty counts)
        (print (MsgReplacedNulls (null_sub a) counts)) ;;
      c <- get clipCount ;;
      print (MsgClipped c)))%py.

(** [main()]; the value is what [main] returns, [None] when it falls off
    its end. *)
Definition main (a : args) : M (option Z) :=
  if negb (open_ok w (output a)) then
    (emit (EvOpenFailed (output a)) ;;
     print (MsgCannotOpen (output a)) ;;
     print MsgIOError ;;
     ret (Some (-2)%Z))%py
  else
    (emit (EvOpen (output a)) ;;
     if (ra_max a <=? ra_min a)%float || (dec_max a <=? dec_min a)%float then
       print (MsgInvalidWindow (ra_min a) (ra_max a) (dec_min a) (dec_max a)) ;;
       ret (Some (-2)%Z)
     else
       radius <- radius a ;;
       query <- lift TypeError (query a radius) ;;
       when (verbose a) (print (MsgUsingQuery query)) ;;
       emit (EvWrite header) ;;
       modify (set_nulls ∅) ;;
       modify (set_clipCount 0) ;;
       try_finally (fetch_and_dump a query) (session_close ;; engine_dispose) ;;
       emit EvClose ;;
       ret None)%py.

(** Running the script: [if __name__ == "__main__": main()].  The value
    of [main()] is dropped; the interpreter exits with 0 when [main]
    returns and with 1 when an exception escapes. *)
Definition run (a : args) : state * (exn + option Z) := main a init_state.

Definition exit_status (a : args) : Z :=
  match snd (run a) with
  | inr _ => 0
  | inl _ => 1
  end.

End Program.

(** The lines of the output file, read off a trace. *)
Fixpoint file_lines (tr : list event) : list string :=
  match tr with
  | [] => []
  | EvWrite line :: tr' => line :: file_lines tr'
  | _ :: tr' => file_lines tr'
  end.

Definition is_db_event (e : event) : bool :=
  match e with
  | EvCreateEngine | EvCreateSession | EvExecute _ | EvSessionClose | EvEngineDispose => true
  | _ => false
  end.

Definition is_write (e : event) : bool :=
  match e with
  | EvWrite _ => true
  | _ => false
  end.

(** ** A reference runtime

    Exact decimal renderings of binary64 values, and the correctly
    rounded square as [x ** 2].  [str] prints every digit of the value,
    which is Python's text for the values used below. *)

Module Reference.

Definition digits (z : Z) : string := NilZero.string_of_uint (N.to_uint (Z.to_N z)).

Fixpoint zeros (n : nat) : string :=
  match n with
  | O => EmptyString
  | S k => String "0" (zeros k)
  end.

Definition pad (width : nat) (t : string) : string :=
  zeros (width - String.length t) +:+ t.

Definition sign (s : bool) : string := if s then "-" else "".

(** Round half to even of [num / den], [den > 0]. *)
Definition round_div (num den : Z) : Z :=
  let q := (num / den)%Z in
  let r := (num mod den)%Z in
  if (den <? 2 * r)%Z then (q + 1)%Z
  else if (2 * r =? den)%Z && Z.odd q then (q + 1)%Z
  else q.

Definition fmt_f (x : float) : string :=
  match Prim2SF x with
  | S754_zero s => sign s +:+ "0.000000"
  | S754_infinity s => sign s +:+ "inf"
  | S754_nan => "nan"
  | S754_finite s m e =>
      let q := if (0 <=? e)%Z then (Z.pos m * 2 ^ e * 10 ^ 6)%Z
               else round_div (Z.pos m * 10 ^ 6) (2 ^ (- e)) in
      sign s +:+ digits (q / 10 ^ 6) +:+ "." +:+ pad 6 (digits (q mod 10 ^ 6))
  end.

Fixpoint strip_zeros (fuel : nat) (z : Z) (width : nat) : string :=
  match fuel with
  | O => pad width (digits z)
  | S k =>
      if ((z mod 10 =? 0) && (1 <? Z.of_nat width))%Z
      then strip_zeros k (z / 10) (width - 1)
      else pad width (digits z)
  end.

Definition str (x : float) : string :=
  match Prim2SF x with
  | S754_zero s => sign s +:+ "0.0"
  | S754_infinity s => sign s +:+ "inf"
  | S754_nan => "nan"
  | S754_finite s m e =>
      if (0 <=? e)%Z then sign s +:+ digits (Z.pos m * 2 ^ e) +:+ ".0"
      else
        let den := (2 ^ (- e))%Z in
        let width := Z.to_nat (- e) in
        sign s +:+ digits (Z.pos m / den) +:+ "."
        +:+ strip_zeros width ((Z.pos m mod den) * 5 ^ (- e)) width
  end.

Definition float_pow (x : float) (n : Z) : option float :=
  if (n =? 2)%Z then
    let y := (x * x)%float in
    if is_infinity y && negb (is_infinity x) then None else Some y
  else None.

Definition runtime : runtime := mkRuntime str fmt_f float_pow.

End Reference.

(** * Vocabulary of the properties *)

(** The row has a cell, NULL or not, for each of the given columns. *)
Definition has_cols (cols : list string) (r : row) : bool :=
  forallb (fun c => bool_decide (is_Some (r !! c))) cols.

Definition has_columns (r : row) : bool := has_cols clist r.

(** The value of a cell once NULLs are replaced. *)
Definition value_of (a : args) (r : row) (col : string) : float :=
  match r !! col with
  | Some (Some x) => x
  | _ => null_sub a
  end.

Definition is_null (col : string) (r : row) : bool :=
  match r !! col with
  | Some None => true
  | _ => false
  end.


(** [c] is one of [cols] and holds NULL in [r]. *)
Definition null_in (cols : list string) (r : row) (c : string) : bool :=
  bool_decide (c ∈ cols) && is_null c r.

(** The clipping test of the row loop, on the row's values. *)
Definition clipped (a : args) (r : row) : bool :=
  outside a (recenter (value_of a r "ra")) (value_of a r "dec").

(** The line printed for a row that is kept. *)
Definition row_line (rt : runtime) (a : args) (r : row) : string :=
  PyStr.join " " (map (fun c => str rt (value_of a r c)) clist).

(** The counters after the NULLs of one row are counted. *)
Definition counted (r : row) (m m' : gmap string nat) : Prop :=
  forall c, m' !! c = if null_in clist r c then Some (default 0 (m !! c) + 1) else m !! c.

(** The rows that are printed. *)
Definition kept (a : args) (rows : list row) : list row :=
  List.filter (fun r => negb (clipped a r)) rows.

(** The counters after the NULLs of all rows are counted. *)
Definition counted_all (rows : list row) (m m' : gmap string nat) : Prop :=
  forall c,
    m' !! c = match length (List.filter (fun r => null_in clist r c) rows) with
              | O => m !! c
              | S k => Some (default 0 (m !! c) + S k)
              end.

(** [m] only appends events other than database events and keeps the
    bindings of [engine] and [session]. *)
Definition quiet {A} (m : M A) : Prop :=
  forall s, exists ext,
    trace (fst (m s)) = trace s ++ ext
    /\ forallb (fun e => negb (is_db_event e)) ext = true
    /\ engine (fst (m s)) = engine s
    /\ session (fst (m s)) = session s.

(** The text of the stored-procedure call, field by field. *)
Definition query_text (rt : runtime) (a : args) (radius : float) : string :=
  "GalaxySearchSpecColsConstraint2013 @RaSearch = "
  +:+ fmt_f rt (0.5 * (ra_min a + ra_max a))%float
  +:+ ", @DecSearch = " +:+ fmt_f rt (0.5 * (dec_min a + dec_max a))%float
  +:+ ", @apertureRadius = " +:+ fmt_f rt radius
  +:+ ", @ColumnNames = '"
  +:+ PyStr.join "," (List.filter (fun c => negb (String.eqb c "galtileid")) clist)
  +:+ "', @WhereClause = ''".

(** What verbose mode prints after the row loop. *)
Definition summary (a : args) (n : nat) (m : gmap string nat) (c : nat) : list event :=
  if verbose a then
    [EvPrint (MsgDumped n (output a))]
    ++ (if nonempty m then [EvPrint (MsgReplacedNulls (null_sub a) m)] else [])
    ++ [EvPrint (MsgClipped c)]
  else [].

(** The state in which the query is sent. *)
Definition connected (q : string) (s : state) : state :=
  mkState (trace s ++ [EvCreateEngine; EvCreateSession; EvExecute q])
          true true (nulls s) (clipCount s) (nrows s).

(** The test of the window made by [main]. *)
Definition window_rejected (a : args) : bool :=
  (ra_max a <=? ra_min a)%float || (dec_max a <=? dec_min a)%float.

(** The state in which the [try] statement is entered. *)
Definition ready (a : args) (q : string) : state :=
  mkState ([EvOpen (output a)]
           ++ (if verbose a then [EvPrint (MsgUsingQuery q)] else [])
           ++ [EvWrite header])
          false false ∅ 0 0.

Definition closed (s : state) : state :=
  mkState (trace s ++ [EvClose]) (engine s) (session s) (nulls s) (clipCount s) (nrows s).

Definition released (s : state) : state :=
  mkState (trace s ++ [EvSessionClose; EvEngineDispose])
          (engine s) (session s) (nulls s) (clipCount s) (nrows s).

Definition is_execute (e : event) : bool :=
  match e with
  | EvExecute _ => true
  | _ => false
  end.

(** * Sample inputs *)

Module Sample.

(** Every cell 0.25: inside the default window. *)
Definition plain_row : row :=
  list_to_map (map (fun c => (c, Some 0.25%float)) clist).

(** The same row at right ascension 182 degrees. *)
Definition far_row : row := <["ra" := Some 182%float]> plain_row.


(** The same row with a NULL magnitude. *)
Definition null_u_row : row := <["u_ab" := None]> plain_row.

Definition answers (rows : list row) : world :=
  mkWorld (fun _ => true) true (fun _ => Some rows).

Definition no_file : world := mkWorld (fun _ => false) true (fun _ => Some []).

Definition db_down : world := mkWorld (fun _ => true) true (fun _ => None).

(** [--ra-min 1 --ra-max 0]. *)
Definition inverted : args :=
  mkArgs false "gcat.dat" (-0.5)%float 0.5%float 1%float 0%float (-1)%float.


(** [--ra-max 4.149515568880993e+180], that is 2 ** 600: the square of
    the width is out of range. *)
Definition huge : args :=
  mkArgs false "gcat.dat" (-0.5)%float 0.5%float 0%float 0x1p+600%float (-1)%float.

(** [--null-sub -7]. *)
Definition minus_seven : args :=
  mkArgs false "gcat.dat" (-0.5)%float 0.5%float 0%float 1%float (-7)%float.

End Sample.

(** * Properties *)

(** ** Order on binary64 values *)



(** ** Rows and their values *)

Lemma has_cols_lookup cols (r : row) c :
  has_cols cols r = true -> c ∈ cols -> is_Some (r !! c).
Proof.
  unfold has_cols. rewrite forallb_forall. intros H Hc.
  apply list_elem_of_In, H in Hc. now apply bool_decide_eq_true in Hc.
Qed.

Lemma has_cols_insert cols (r : row) col v :
  has_cols cols r = true -> has_cols cols (<[col := v]> r) = true.
Proof.
  unfold has_cols. rewrite !forallb_forall. intros H c Hc.
  apply bool_decide_eq_true. specialize (H c Hc). apply bool_decide_eq_true in H.
  destruct (decide (col = c)) as [->|Hne].
  - rewrite lookup_insert_eq. eauto.
  - now rewrite lookup_insert_ne.
Qed.

Lemma null_in_nil (r : row) c : null_in [] r c = false.
Proof. unfold null_in. rewrite bool_decide_eq_false_2; [reflexivity|]. intros Hin; inversion Hin. Qed.

Lemma null_in_cons_same col cols (r : row) :
  null_in (col :: cols) r col = is_null col r.
Proof. unfold null_in. rewrite bool_decide_eq_true_2; [reflexivity|left]. Qed.

Lemma null_in_cons_other col cols (r : row) c :
  c <> col -> null_in (col :: cols) r c = null_in cols r c.
Proof.
  intros Hne. unfold null_in. f_equal. apply bool_decide_ext.
  rewrite elem_of_cons. split; [intros [?|?]; [contradiction|assumption]|now right].
Qed.

Lemma null_in_not_null cols (r : row) c : is_null c r = false -> null_in cols r c = false.
Proof. unfold null_in. intros ->. apply andb_false_r. Qed.

Lemma is_null_insert_other (r : row) col c v :
  c <> col -> is_null c (<[col := v]> r) = is_null c r.
Proof. intros Hne. unfold is_null. now rewrite lookup_insert_ne by congruence. Qed.

(** ** The NULL filter *)

Lemma count_null_spec col s :
  count_null col s
  = (set_nulls (<[col := default 0 (nulls s !! col) + 1]> (nulls s)) s, inr tt).
Proof.
  unfold count_null, bind, get, when, modify, lift, ret, raise.
  destruct (nulls s !! col) as [n|] eqn:E; simpl.
  - now rewrite E.
  - rewrite lookup_insert_eq. unfold set_nulls; simpl.
    now rewrite insert_insert_eq.
Qed.

(** The row and the counters after the inner loop over [cols]: exactly
    the NULL cells of [cols] are overwritten, and each adds one to the
    counter of its column, which starts from zero when absent. *)
Lemma sanitize_spec a cols : forall (r : row) s,
  has_cols cols r = true ->
  exists (r' : row) (m' : gmap string nat),
    sanitize a cols r s = (set_nulls m' s, inr r')
    /\ (forall c, r' !! c
                  = if null_in cols r c then Some (Some (null_sub a)) else r !! c)
    /\ (forall c, m' !! c
                  = if null_in cols r c
                    then Some (default 0 (nulls s !! c) + 1) else nulls s !! c).
Proof.
  induction cols as [|col cols IH]; intros r s Hr.
  - exists r, (nulls s). split; [destruct s; reflexivity|].
    split; intros c; now rewrite null_in_nil.
  - simpl in Hr. apply andb_true_iff in Hr as [Hcol Hr].
    apply bool_decide_eq_true in Hcol as [v Hv].
    simpl. unfold bind at 1, getitem, lift. rewrite Hv. simpl.
    destruct v as [x|].
    + destruct (IH r s Hr) as (r' & m' & Hrun & Hrow & Hcnt).
      assert (Hstep : forall c, null_in (col :: cols) r c = null_in cols r c).
      { intros c. destruct (decide (c = col)) as [->|Hne].
        - assert (Hx : is_null col r = false) by (unfold is_null; now rewrite Hv).
          now rewrite null_in_cons_same, Hx, (null_in_not_null _ _ _ Hx).
        - now apply null_in_cons_other. }
      exists r', m'. split; [exact Hrun|].
      split; intros c; rewrite Hstep; auto.
    + unfold bind at 1. rewrite count_null_spec.
      set (s1 := set_nulls _ s).
      destruct (IH (<[col := Some (null_sub a)]> r) s1 (has_cols_insert _ _ _ _ Hr))
        as (r' & m' & Hrun & Hrow & Hcnt).
      assert (Hnull : is_null col r = true) by (unfold is_null; now rewrite Hv).
      assert (Hdone : is_null col (<[col := Some (null_sub a)]> r) = false)
        by (unfold is_null; now rewrite lookup_insert_eq).
      exists r', m'. split; [rewrite Hrun; destruct s; reflexivity|].
      split; intros c.
      * rewrite Hrow. destruct (decide (c = col)) as [->|Hne].
        -- rewrite null_in_cons_same, Hnull, (null_in_not_null _ _ _ Hdone).
           now rewrite lookup_insert_eq.
        -- rewrite null_in_cons_other by exact Hne.
           unfold null_in. rewrite is_null_insert_other by exact Hne.
           now rewrite lookup_insert_ne by congruence.
      * rewrite Hcnt. subst s1. simpl. destruct (decide (c = col)) as [->|Hne].
        -- rewrite null_in_cons_same, Hnull, (null_in_not_null _ _ _ Hdone).
           now rewrite lookup_insert_eq.
        -- rewrite null_in_cons_other by exact Hne.
           unfold null_in. rewrite is_null_insert_other by exact Hne.
           now rewrite lookup_insert_ne by congruence.
Qed.

(** ** One row *)

Example clist_value :
  clist = ["galtileid"; "ra"; "dec"; "redshift"; "fluxnorm_bulge"; "fluxnorm_disk";
           "fluxnorm_agn"; "a_b"; "a_d"; "b_b"; "b_d"; "pa_bulge"; "pa_disk";
           "u_ab"; "g_ab"; "r_ab"; "i_ab"; "z_ab"; "y_ab"].
Proof. reflexivity. Qed.

Example columns_value :
  columns = "galtileid,ra,dec,redshift,fluxnorm_bulge,fluxnorm_disk,fluxnorm_agn,a_b,a_d,b_b,b_d,pa_bulge,pa_disk,u_ab,g_ab,r_ab,i_ab,z_ab,y_ab".
Proof. reflexivity. Qed.

Lemma ra_in_clist : "ra" ∈ clist.
Proof. rewrite clist_value. set_solver. Qed.

Lemma dec_in_clist : "dec" ∈ clist.
Proof. rewrite clist_value. set_solver. Qed.

Lemma sanitized_lookup a cols (r r' : row) c :
  has_cols cols r = true ->
  (forall c, r' !! c = if null_in cols r c then Some (Some (null_sub a)) else r !! c) ->
  c ∈ cols -> r' !! c = Some (Some (value_of a r c)).
Proof.
  intros Hr Hrow Hc. rewrite Hrow. unfold null_in, is_null, value_of.
  rewrite bool_decide_eq_true_2 by exact Hc.
  destruct (has_cols_lookup _ _ _ Hr Hc) as [[x|] ->]; reflexivity.
Qed.

Lemma collect_getitem (r : row) (f : string -> float) cols s :
  (forall c, c ∈ cols -> r !! c = Some (Some (f c))) ->
  collect (getitem r) cols s = (s, inr (map (fun c => Some (f c)) cols)).
Proof.
  induction cols as [|c cols IH]; intros H; [reflexivity|].
  cbn [collect map]. unfold bind at 1, getitem at 1, lift. rewrite (H c) by left.
  unfold ret at 1. cbv beta iota.
  unfold bind at 1. rewrite IH by (intros c' Hc'; apply H; now right). reflexivity.
Qed.

Lemma process_row_spec rt a (r : row) s :
  has_columns r = true ->
  exists m', counted r (nulls s) m'
    /\ process_row rt a r s
       = (if clipped a r
          then mkState (trace s) (engine s) (session s) m' (clipCount s + 1) (nrows s)
          else mkState (trace s ++ [EvWrite (row_line rt a r)]) (engine s) (session s)
                       m' (clipCount s) (nrows s + 1),
          inr tt).
Proof.
  intros Hr. destruct (sanitize_spec a clist r s Hr) as (r' & m' & Hrun & Hrow & Hcnt).
  exists m'. split; [exact Hcnt|].
  pose proof (fun c => sanitized_lookup a clist r r' c Hr Hrow) as Hval.
  unfold process_row. unfold bind at 1. rewrite Hrun. cbv beta iota.
  unfold bind at 1, getitem at 1, lift. rewrite (Hval "ra" ra_in_clist).
  unfold ret at 1. cbv beta iota.
  unfold bind at 1, number at 1, lift, ret at 1. cbv beta iota.
  unfold bind at 1, getitem at 1, lift. rewrite (Hval "dec" dec_in_clist).
  unfold ret at 1. cbv beta iota.
  unfold bind at 1, number at 1, lift, ret at 1. cbv beta iota zeta.
  fold (clipped a r). destruct (clipped a r).
  - reflexivity.
  - unfold bind at 1. rewrite (collect_getitem r' (value_of a r)) by exact Hval.
    cbv beta iota. unfold row_line. rewrite map_map. reflexivity.
Qed.

(** ** The row loop *)

Lemma for_each_process_row rt a rows : forall s,
  forallb has_columns rows = true ->
  exists m', counted_all rows (nulls s) m'
    /\ for_each rows (process_row rt a) s
       = (mkState (trace s ++ map (fun r => EvWrite (row_line rt a r)) (kept a rows))
                  (engine s) (session s) m'
                  (clipCount s + length (List.filter (clipped a) rows))
                  (nrows s + length (kept a rows)),
          inr tt).
Proof.
  induction rows as [|r rows IH]; intros s Hrows.
  - exists (nulls s). split; [intros c; reflexivity|].
    cbn [for_each kept List.filter map length]. unfold ret.
    rewrite app_nil_r, !Nat.add_0_r. destruct s; reflexivity.
  - cbn [forallb] in Hrows. apply andb_true_iff in Hrows as [Hr Hrows].
    destruct (process_row_spec rt a r s Hr) as (m1 & Hm1 & Hrun).
    cbn [for_each]. unfold bind at 1. rewrite Hrun. cbv beta iota.
    set (s1 := if clipped a r then _ else _).
    destruct (IH s1 Hrows) as (m' & Hm' & Hloop).
    exists m'. split.
    + intros c. rewrite (Hm' c). cbn [List.filter].
      assert (Hn1 : nulls s1 = m1) by (subst s1; destruct (clipped a r); reflexivity).
      rewrite Hn1, (Hm1 c).
      destruct (null_in clist r c); cbn [length];
        destruct (length (List.filter (fun r0 => null_in clist r0 c) rows));
        cbn [default]; try reflexivity.
      unfold id. f_equal. lia.
    + rewrite Hloop. unfold kept. cbn [List.filter]. subst s1.
      destruct (clipped a r); cbn [negb map length trace engine session clipCount nrows].
      * do 2 f_equal. lia.
      * rewrite <- app_assoc. cbn [app]. do 2 f_equal. lia.
Qed.

(** ** Effects that leave the database alone *)

Lemma quiet_ret {A} (x : A) : quiet (ret x).
Proof. intros s. exists []. now rewrite app_nil_r. Qed.

Lemma quiet_raise {A} e : quiet (@raise A e).
Proof. intros s. exists []. now rewrite app_nil_r. Qed.

Lemma quiet_lift {A} e (o : option A) : quiet (lift e o).
Proof. destruct o; [apply quiet_ret|apply quiet_raise]. Qed.

Lemma quiet_get {A} (f : state -> A) : quiet (get f).
Proof. intros s. exists []. now rewrite app_nil_r. Qed.

Lemma quiet_bind {A B} (m : M A) (k : A -> M B) :
  quiet m -> (forall x, quiet (k x)) -> quiet (bind m k).
Proof.
  intros Hm Hk s. unfold bind. destruct (Hm s) as (e1 & Ht & Hq & He & Hs).
  destruct (m s) as [s1 [e|x]]; simpl in *.
  - exists e1. auto.
  - destruct (Hk x s1) as (e2 & Ht2 & Hq2 & He2 & Hs2).
    exists (e1 ++ e2). rewrite Ht2, Ht, app_assoc, forallb_app, Hq, Hq2.
    repeat split; congruence.
Qed.

Lemma quiet_modify (f : state -> state) :
  (forall s, trace (f s) = trace s /\ engine (f s) = engine s /\ session (f s) = session s) ->
  quiet (modify f).
Proof.
  intros H s. exists []. unfold modify; simpl. rewrite app_nil_r.
  destruct (H s) as (? & ? & ?). auto.
Qed.

Lemma quiet_emit e : is_db_event e = false -> quiet (emit e).
Proof. intros He s. exists [e]. simpl. now rewrite He. Qed.

Lemma quiet_when b m : quiet m -> quiet (when b m).
Proof. destruct b; [auto|intros _; apply quiet_ret]. Qed.

Lemma quiet_for_each {A} (l : list A) (body : A -> M unit) :
  (forall x, quiet (body x)) -> quiet (for_each l body).
Proof.
  intros H. induction l as [|x l IH]; [apply quiet_ret|].
  apply quiet_bind; auto.
Qed.

Lemma quiet_collect {A B} (f : A -> M B) (l : list A) :
  (forall x, quiet (f x)) -> quiet (collect f l).
Proof.
  intros H. induction l as [|x l IH]; [apply quiet_ret|].
  cbn [collect]. apply quiet_bind; [auto|]. intros y.
  apply quiet_bind; [auto|]. intros ys. apply quiet_ret.
Qed.

Create HintDb quiet.
#[local] Hint Resolve quiet_ret quiet_raise quiet_lift quiet_get quiet_when
  quiet_for_each quiet_collect : quiet.

Lemma quiet_count_null col : quiet (count_null col).
Proof.
  unfold count_null.
  repeat (apply quiet_bind; [|intros ?]); auto with quiet.
  - apply quiet_when, quiet_modify. intros s; auto.
  - intros s. exists []. rewrite app_nil_r. destruct (nulls s !! col); simpl; auto.
  - apply quiet_modify. intros s; auto.
Qed.

Lemma quiet_sanitize a cols : forall r, quiet (sanitize a cols r).
Proof.
  induction cols as [|col cols IH]; intros r; [apply quiet_ret|].
  cbn [sanitize]. apply quiet_bind; [apply quiet_lift|]. intros [x|]; [apply IH|].
  apply quiet_bind; [apply quiet_count_null|]. intros _. apply IH.
Qed.

Lemma quiet_process_row rt a r : quiet (process_row rt a r).
Proof.
  unfold process_row.
  apply quiet_bind; [apply quiet_sanitize|]. intros r'.
  apply quiet_bind; [apply quiet_lift|]. intros v.
  apply quiet_bind; [apply quiet_lift|]. intros ra.
  apply quiet_bind; [apply quiet_lift|]. intros v'.
  apply quiet_bind; [apply quiet_lift|]. intros dec.
  destruct (outside a (recenter ra) dec).
  - apply quiet_modify. intros s; auto.
  - apply quiet_bind; [apply quiet_collect; intros c; apply quiet_lift|]. intros cells.
    apply quiet_bind; [now apply quiet_emit|]. intros _.
    apply quiet_modify. intros s; auto.
Qed.

(** ** The query *)

Lemma query_spec rt a radius : query rt a radius = Some (query_text rt a radius).
Proof. reflexivity. Qed.

Lemma radius_spec rt a s1 s2 s :
  float_pow rt (ra_max a - ra_min a)%float 2 = Some s1 ->
  float_pow rt (dec_max a - dec_min a)%float 2 = Some s2 ->
  radius rt a s = (s, inr (30 * sqrt (s1 + s2))%float).
Proof.
  intros H1 H2. unfold radius, pow, bind, lift, ret. rewrite H1, H2. reflexivity.
Qed.

(** ** The query stage *)

Lemma summary_quiet a n m c :
  forallb (fun e => negb (is_db_event e)) (summary a n m c) = true.
Proof. unfold summary. destruct (verbose a), (nonempty m); reflexivity. Qed.

Lemma quiet_summary a :
  quiet (when (verbose a)
     (n <- get nrows ;;
      print (MsgDumped n (output a)) ;;
      counts <- get nulls ;;
      when (nonempty counts)
        (print (MsgReplacedNulls (null_sub a) counts)) ;;
      c <- get clipCount ;;
      print (MsgClipped c)))%py.
Proof.
  apply quiet_when. unfold print.
  apply quiet_bind; [apply quiet_get|intros n].
  apply quiet_bind; [now apply quiet_emit|intros _].
  apply quiet_bind; [apply quiet_get|intros counts].
  apply quiet_bind; [apply quiet_when; now apply quiet_emit|intros _].
  apply quiet_bind; [apply quiet_get|intros c].
  now apply quiet_emit.
Qed.

(** The [try] body when the engine cannot be created. *)
Lemma fetch_and_dump_no_engine rt w a q s :
  create_engine_ok w = false ->
  fetch_and_dump rt w a q s = (s, inl EngineError).
Proof.
  intros H. unfold fetch_and_dump, bind at 1, create_engine. now rewrite H.
Qed.

Lemma fetch_and_dump_connected rt w a q s :
  create_engine_ok w = true ->
  fetch_and_dump rt w a q s
  = match fetchall w q with
    | None => (connected q s, inl ExecuteError)
    | Some results =>
        (modify (set_nrows 0) ;;
         for_each results (process_row rt a) ;;
         when (verbose a)
           (n <- get nrows ;;
            print (MsgDumped n (output a)) ;;
            counts <- get nulls ;;
            when (nonempty counts)
              (print (MsgReplacedNulls (null_sub a) counts)) ;;
            c <- get clipCount ;;
            print (MsgClipped c)))%py (connected q s)
    end.
Proof.
  intros H. unfold fetch_and_dump, create_engine, scoped_session, execute. rewrite H.
  unfold connected.
  destruct (fetchall w q) as [results|]; cbn [bind modify emit lift ret raise];
    cbn [trace engine session nulls clipCount nrows set_engine set_session];
    rewrite <- !app_assoc; reflexivity.
Qed.

(** Whatever the query answers and whatever the rows hold, the [try]
    body leaves [engine] and [session] bound and sends nothing else to
    the database. *)
Lemma fetch_and_dump_quiet rt w a q s :
  create_engine_ok w = true ->
  exists ext,
    trace (fst (fetch_and_dump rt w a q s)) = trace (connected q s) ++ ext
    /\ forallb (fun e => negb (is_db_event e)) ext = true
    /\ engine (fst (fetch_and_dump rt w a q s)) = true
    /\ session (fst (fetch_and_dump rt w a q s)) = true.
Proof.
  intros H. rewrite (fetch_and_dump_connected rt w a q s H).
  destruct (fetchall w q) as [results|].
  - apply (quiet_bind (modify (set_nrows 0))).
    + apply quiet_modify. intros s'; auto.
    + intros _. apply quiet_bind.
      * apply quiet_for_each. intros r. apply quiet_process_row.
      * intros _. apply quiet_summary.
  - exists []. now rewrite app_nil_r.
Qed.

(** The [try] body on rows that have every column. *)
Lemma fetch_and_dump_rows rt w a q s results :
  create_engine_ok w = true ->
  fetchall w q = Some results ->
  forallb has_columns results = true ->
  exists m', counted_all results (nulls s) m'
    /\ fetch_and_dump rt w a q s
       = (let n := length (kept a results) in
          let c := clipCount s + length (List.filter (clipped a) results) in
          mkState (trace (connected q s)
                   ++ map (fun r => EvWrite (row_line rt a r)) (kept a results)
                   ++ summary a n m' c)
                  true true m' c n,
          inr tt).
Proof.
  intros He Hq Hrows. rewrite (fetch_and_dump_connected rt w a q s He), Hq.
  unfold bind at 1, modify at 1. cbv beta iota.
  destruct (for_each_process_row rt a results (set_nrows 0 (connected q s)) Hrows)
    as (m' & Hm' & Hloop).
  exists m'. split; [exact Hm'|].
  unfold bind at 1. rewrite Hloop. cbv beta iota zeta.
  cbn [trace engine session nulls clipCount nrows set_nrows connected].
  unfold summary, when, print, bind, get, emit, ret.
  destruct (verbose a); cbn [trace engine session nulls clipCount nrows];
    [destruct (nonempty m')|];
    cbn [negb trace engine session nulls clipCount nrows Nat.add];
    rewrite <- ?app_assoc, ?app_nil_r; reflexivity.
Qed.

(** ** The whole run *)


Lemma run_open_failed rt w a :
  open_ok w (output a) = false ->
  run rt w a
  = (mkState [EvOpenFailed (output a); EvPrint (MsgCannotOpen (output a)); EvPrint MsgIOError]
             false false ∅ 0 0,
     inr (Some (-2)%Z)).
Proof. intros H. unfold run, main. rewrite H. reflexivity. Qed.

Lemma run_window_rejected rt w a :
  open_ok w (output a) = true ->
  window_rejected a = true ->
  run rt w a
  = (mkState [EvOpen (output a);
              EvPrint (MsgInvalidWindow (ra_min a) (ra_max a) (dec_min a) (dec_max a))]
             false false ∅ 0 0,
     inr (Some (-2)%Z)).
Proof.
  intros Ho Hw. unfold run, main. rewrite Ho. unfold window_rejected in Hw.
  cbn [negb]. unfold bind at 1, emit at 1. cbv beta iota. rewrite Hw. reflexivity.
Qed.

Lemma run_query_stage rt w a s1 s2 :
  open_ok w (output a) = true ->
  window_rejected a = false ->
  float_pow rt (ra_max a - ra_min a)%float 2 = Some s1 ->
  float_pow rt (dec_max a - dec_min a)%float 2 = Some s2 ->
  let q := query_text rt a (30 * sqrt (s1 + s2))%float in
  run rt w a
  = match try_finally (fetch_and_dump rt w a q) (session_close ;; engine_dispose)%py
            (ready a q) with
    | (sf, inl e) => (sf, inl e)
    | (sf, inr _) => (closed sf, inr None)
    end.
Proof.
  intros Ho Hw H1 H2 q. unfold run, main. rewrite Ho. unfold window_rejected in Hw.
  cbn [negb]. unfold bind at 1, emit at 1. cbv beta iota. rewrite Hw.
  unfold bind at 1. rewrite (radius_spec rt a s1 s2 _ H1 H2). cbv beta iota.
  unfold bind at 1. rewrite query_spec. fold q. unfold lift, ret at 1. cbv beta iota.
  unfold ready.
  destruct (verbose a); unfold when, print, bind, emit, modify, ret;
    cbn [trace engine session nulls clipCount nrows init_state set_nulls set_clipCount app];
    destruct (try_finally _ _ _) as [sf [e|[]]]; reflexivity.
Qed.

(** The [finally] clause when both locals are bound. *)
Lemma finally_bound s :
  engine s = true -> session s = true ->
  (session_close ;; engine_dispose)%py s = (released s, inr tt).
Proof.
  intros He Hs. unfold session_close, engine_dispose, bind, get, emit, released.
  rewrite Hs. cbn [trace engine session nulls clipCount nrows]. rewrite He.
  cbn [trace engine session nulls clipCount nrows].
  rewrite <- app_assoc, ?He, ?Hs. reflexivity.
Qed.

(** The [finally] clause when [create_engine] raised: [session] was
    never assigned. *)
Lemma finally_unbound s :
  session s = false ->
  (session_close ;; engine_dispose)%py s = (s, inl (UnboundLocalError "session")).
Proof. intros Hs. unfold session_close, bind, get. now rewrite Hs. Qed.

Lemma no_db_no_execute l :
  forallb (fun e => negb (is_db_event e)) l = true -> List.filter is_execute l = [].
Proof.
  induction l as [|e l IH]; [reflexivity|]. cbn [forallb List.filter].
  intros H. apply andb_true_iff in H as [He Hl].
  destruct e; try discriminate; cbn [is_execute]; auto.
Qed.

(** The run when the engine cannot be created: nothing was acquired,
    and the [finally] clause fails on the unbound [session]. *)
Lemma run_no_engine rt w a s1 s2 :
  open_ok w (output a) = true ->
  window_rejected a = false ->
  float_pow rt (ra_max a - ra_min a)%float 2 = Some s1 ->
  float_pow rt (dec_max a - dec_min a)%float 2 = Some s2 ->
  create_engine_ok w = false ->
  run rt w a
  = (ready a (query_text rt a (30 * sqrt (s1 + s2))%float),
     inl (UnboundLocalError "session")).
Proof.
  intros Ho Hw H1 H2 He. rewrite (run_query_stage rt w a s1 s2 Ho Hw H1 H2).
  unfold try_finally. rewrite (fetch_and_dump_no_engine rt w a _ _ He).
  now rewrite finally_unbound.
Qed.

(** The run once the engine exists, whatever the database answers. *)
Lemma run_connected rt w a s1 s2 :
  open_ok w (output a) = true ->
  window_rejected a = false ->
  float_pow rt (ra_max a - ra_min a)%float 2 = Some s1 ->
  float_pow rt (dec_max a - dec_min a)%float 2 = Some s2 ->
  create_engine_ok w = true ->
  let q := query_text rt a (30 * sqrt (s1 + s2))%float in
  exists ext post,
    trace (fst (run rt w a))
    = trace (ready a q) ++ [EvCreateEngine; EvCreateSession; EvExecute q] ++ ext
      ++ [EvSessionClose; EvEngineDispose] ++ post
    /\ forallb (fun e => negb (is_db_event e)) ext = true
    /\ (post = [] \/ post = [EvClose])
    /\ (forall e, snd (run rt w a) = inl e -> post = [])
    /\ (fetchall w q = None ->
        ext = [] /\ post = [] /\ snd (run rt w a) = inl ExecuteError).
Proof.
  intros Ho Hw H1 H2 He q. rewrite (run_query_stage rt w a s1 s2 Ho Hw H1 H2). fold q.
  destruct (fetch_and_dump_quiet rt w a q (ready a q) He) as (ext & Ht & Hq & Hen & Hse).
  pose proof (fetch_and_dump_connected rt w a q (ready a q) He) as Hfd.
  unfold try_finally. destruct (fetch_and_dump rt w a q (ready a q)) as [sb res].
  cbn [fst] in Ht, Hen, Hse. rewrite (finally_bound sb Hen Hse).
  destruct res as [e|[]].
  - exists ext, []. cbn [fst snd released trace]. rewrite Ht.
    cbn [connected trace]. rewrite app_nil_r, <- !app_assoc.
    split; [reflexivity|]. split; [exact Hq|]. split; [now left|].
    split; [reflexivity|].
    intros Hnone. rewrite Hnone in Hfd. inversion Hfd; subst.
    split; [|auto]. cbn [connected trace] in Ht.
    apply (app_inv_head (trace (ready a q) ++ [EvCreateEngine; EvCreateSession; EvExecute q])).
    now rewrite app_nil_r.
  - exists ext, [EvClose]. cbn [fst snd closed released trace]. rewrite Ht.
    cbn [connected trace]. rewrite <- !app_assoc.
    split; [reflexivity|]. split; [exact Hq|]. split; [now right|].
    split; [discriminate|].
    intros Hnone. rewrite Hnone in Hfd. discriminate.
Qed.

(** The run on rows that have every column. *)
Lemma run_rows rt w a s1 s2 rows :
  open_ok w (output a) = true ->
  window_rejected a = false ->
  float_pow rt (ra_max a - ra_min a)%float 2 = Some s1 ->
  float_pow rt (dec_max a - dec_min a)%float 2 = Some s2 ->
  create_engine_ok w = true ->
  fetchall w (query_text rt a (30 * sqrt (s1 + s2))%float) = Some rows ->
  forallb has_columns rows = true ->
  let q := query_text rt a (30 * sqrt (s1 + s2))%float in
  exists m', counted_all rows ∅ m'
    /\ run rt w a
       = (let n := length (kept a rows) in
          let c := length (List.filter (clipped a) rows) in
          mkState (trace (ready a q) ++ [EvCreateEngine; EvCreateSession; EvExecute q]
                   ++ map (fun r => EvWrite (row_line rt a r)) (kept a rows)
                   ++ summary a n m' c
                   ++ [EvSessionClose; EvEngineDispose; EvClose])
                  true true m' c n,
          inr None).
Proof.
  intros Ho Hw H1 H2 He Hq Hrows q. rewrite (run_query_stage rt w a s1 s2 Ho Hw H1 H2). fold q.
  destruct (fetch_and_dump_rows rt w a q (ready a q) rows He Hq Hrows) as (m' & Hm' & Hfd).
  exists m'. split; [exact Hm'|].
  unfold try_finally. rewrite Hfd. cbv zeta. rewrite finally_bound by reflexivity.
  unfold closed, released. cbn [trace engine session nulls clipCount nrows connected ready].
  rewrite <- !app_assoc. reflexivity.
Qed.

Lemma file_lines_app l1 l2 : file_lines (l1 ++ l2) = file_lines l1 ++ file_lines l2.
Proof.
  induction l1 as [|e l1 IH]; [reflexivity|].
  destruct e; cbn [app file_lines]; rewrite IH; reflexivity.
Qed.

(** Every run that gets past the window test and computes the radius
    starts with the events of [ready]. *)
Lemma run_starts_ready rt w a s1 s2 :
  open_ok w (output a) = true ->
  window_rejected a = false ->
  float_pow rt (ra_max a - ra_min a)%float 2 = Some s1 ->
  float_pow rt (dec_max a - dec_min a)%float 2 = Some s2 ->
  exists rest,
    trace (fst (run rt w a))
    = trace (ready a (query_text rt a (30 * sqrt (s1 + s2))%float)) ++ rest.
Proof.
  intros Ho Hw H1 H2. destruct (create_engine_ok w) eqn:He.
  - destruct (run_connected rt w a s1 s2 Ho Hw H1 H2 He) as (ext & post & Ht & _).
    eexists. exact Ht.
  - rewrite (run_no_engine rt w a s1 s2 Ho Hw H1 H2 He). exists []. now rewrite app_nil_r.
Qed.

(** The one query of a run that reaches the database. *)
Lemma run_executes_once rt w a s1 s2 :
  open_ok w (output a) = true ->
  window_rejected a = false ->
  float_pow rt (ra_max a - ra_min a)%float 2 = Some s1 ->
  float_pow rt (dec_max a - dec_min a)%float 2 = Some s2 ->
  create_engine_ok w = true ->
  List.filter is_execute (trace (fst (run rt w a)))
  = [EvExecute (query_text rt a (30 * sqrt (s1 + s2))%float)].
Proof.
  intros Ho Hw H1 H2 He.
  destruct (run_connected rt w a s1 s2 Ho Hw H1 H2 He) as (ext & post & Ht & Hq & Hpost & _).
  rewrite Ht. rewrite !List.filter_app, (no_db_no_execute _ Hq).
  cbn [ready trace]. rewrite !List.filter_app.
  destruct (verbose a); destruct Hpost as [-> | ->]; reflexivity.
Qed.

(** ** Worked rows *)

#[local] Set Warnings "-inexact-float".

(** A row at right ascension 182 in the window [-5, 5]: recentred to
    -178, hence discarded. *)
Example row_at_182_is_clipped :
  let a := mkArgs false "gcat.dat" (-0.5)%float 0.5%float (-5)%float 5%float (-1)%float in
  let s := fst (process_row Reference.runtime a Sample.far_row init_state) in
  recenter 182%float = (-178)%float /\ clipCount s = 1 /\ trace s = [].
Proof. repeat split; reflexivity. Qed.

(** A row at (0.3, 0.1) in the default window is written, cell by cell
    in column order. *)
Example row_inside_is_written :
  let r : row := <["ra" := Some 0.3%float]> (<["dec" := Some 0.1%float]> Sample.plain_row) in
  let s := fst (process_row Reference.runtime default_args r init_state) in
  clipCount s = 0 /\ nrows s = 1
  /\ trace s = [EvWrite (PyStr.join " "
                  (map (fun c => Reference.str (value_of default_args r c)) clist))].
Proof. repeat split; reflexivity. Qed.

(** With [--null-sub -7] a NULL magnitude is printed as -7. *)
Example null_is_printed_as_substitute :
  file_lines (trace (fst (process_row Reference.runtime Sample.minus_seven
                            Sample.null_u_row init_state)))
  = ["0.25 0.25 0.25 0.25 0.25 0.25 0.25 0.25 0.25 0.25 0.25 0.25 0.25 -7.0 0.25 0.25 0.25 0.25 0.25"].
Proof. reflexivity. Qed.

(** * The claims *)

(** C1, as the code has it.  In every run that opens the output file,
    accepts the window and computes the radius, the first line written
    to the file is the header with the column names that the column
    builder derives, [a_b a_d b_b b_d] for the axes, and it is written
    before anything is sent to the database, whatever the query then
    returns. *)
Theorem header_written_before_query rt w a s1 s2 :
  open_ok w (output a) = true ->
  window_rejected a = false ->
  float_pow rt (ra_max a - ra_min a)%float 2 = Some s1 ->
  float_pow rt (dec_max a - dec_min a)%float 2 = Some s2 ->
  let names :=
    "galtileid ra dec redshift fluxnorm_bulge fluxnorm_disk fluxnorm_agn a_b a_d b_b b_d pa_bulge pa_disk u_ab g_ab r_ab i_ab z_ab y_ab" in
  let tr := trace (fst (run rt w a)) in
  head (file_lines tr) = Some names
  /\ exists pre post,
       tr = pre ++ [EvWrite names] ++ post
       /\ forallb (fun e => negb (is_write e) && negb (is_db_event e)) pre = true.
Proof.
  intros Ho Hw H1 H2 names tr.
  destruct (run_starts_ready rt w a s1 s2 Ho Hw H1 H2) as (rest & Ht).
  subst tr. rewrite Ht. cbn [ready trace]. change header with names. split.
  - rewrite <- !app_assoc, !file_lines_app. destruct (verbose a); reflexivity.
  - exists ([EvOpen (output a)]
            ++ (if verbose a
                then [EvPrint (MsgUsingQuery (query_text rt a (30 * sqrt (s1 + s2))%float))]
                else [])), rest.
    split; [now rewrite <- !app_assoc|]. destruct (verbose a); reflexivity.
Qed.

Lemma header_written_before_query_witness :
  head (file_lines (trace (fst (run Reference.runtime (Sample.answers []) default_args))))
  = Some "galtileid ra dec redshift fluxnorm_bulge fluxnorm_disk fluxnorm_agn a_b a_d b_b b_d pa_bulge pa_disk u_ab g_ab r_ab i_ab z_ab y_ab".
Proof.
  apply (header_written_before_query
           Reference.runtime (Sample.answers []) default_args 1%float 1%float);
    reflexivity.
Defined.

(** C1 as stated fails: the header of a run of the defaults names the
    axis columns [a_b a_d b_b b_d], not [a_b_b a_b_d b_b_b b_b_d]; a run
    with an inverted window opens the output file and leaves it without
    any line; and so does a run whose window is too wide for its square
    to be computed. *)
Lemma header_names_counterexample :
  head (file_lines (trace (fst (run Reference.runtime (Sample.answers []) default_args))))
  = Some "galtileid ra dec redshift fluxnorm_bulge fluxnorm_disk fluxnorm_agn a_b a_d b_b b_d pa_bulge pa_disk u_ab g_ab r_ab i_ab z_ab y_ab"
  /\ String.eqb header
       "galtileid ra dec redshift fluxnorm_bulge fluxnorm_disk fluxnorm_agn a_b_b a_b_d b_b_b b_b_d pa_bulge pa_disk u_ab g_ab r_ab i_ab z_ab y_ab"
     = false
  /\ trace (fst (run Reference.runtime (Sample.answers []) Sample.inverted))
     = [EvOpen "gcat.dat"; EvPrint (MsgInvalidWindow 1 0 (-0.5) 0.5)]
  /\ file_lines (trace (fst (run Reference.runtime (Sample.answers []) Sample.inverted))) = []
  /\ run Reference.runtime (Sample.answers []) Sample.huge
     = (mkState [EvOpen "gcat.dat"] false false ∅ 0 0, inl OverflowError).
Proof. repeat split; reflexivity. Qed.

(** C2, as the code has it.  When [ra_min >= ra_max] or
    [dec_min >= dec_max] nothing is sent to the database and no line is
    written to the output file.  The file is opened first: when that
    succeeds it is left created or truncated and the invalid window is
    then reported; when it fails the open failure is reported and the
    window is never tested. *)
Theorem invalid_window_aborts_after_open rt w a :
  (ra_max a <=? ra_min a)%float = true \/ (dec_max a <=? dec_min a)%float = true ->
  let tr := trace (fst (run rt w a)) in
  forallb (fun e => negb (is_db_event e) && negb (is_write e)) tr = true
  /\ (open_ok w (output a) = true ->
      tr = [EvOpen (output a);
            EvPrint (MsgInvalidWindow (ra_min a) (ra_max a) (dec_min a) (dec_max a))])
  /\ (open_ok w (output a) = false ->
      tr = [EvOpenFailed (output a); EvPrint (MsgCannotOpen (output a)); EvPrint MsgIOError]).
Proof.
  intros Hbad tr.
  assert (Hw : window_rejected a = true).
  { unfold window_rejected. apply orb_true_iff. exact Hbad. }
  subst tr. destruct (open_ok w (output a)) eqn:Ho.
  - rewrite (run_window_rejected rt w a Ho Hw). cbn [fst trace].
    split; [reflexivity|]. split; [reflexivity|discriminate].
  - rewrite (run_open_failed rt w a Ho). cbn [fst trace].
    split; [reflexivity|]. split; [discriminate|reflexivity].
Qed.

Lemma invalid_window_aborts_after_open_witness :
  forallb (fun e => negb (is_db_event e) && negb (is_write e))
    (trace (fst (run Reference.runtime (Sample.answers [Sample.plain_row]) Sample.inverted)))
  = true.
Proof.
  apply (invalid_window_aborts_after_open
           Reference.runtime (Sample.answers [Sample.plain_row]) Sample.inverted).
  left. reflexivity.
Defined.

(** C2 as stated fails: with an inverted window the output file is
    opened, hence created or truncated, before the window is reported
    invalid; and when the file cannot be opened the window is not
    reported at all. *)
Lemma validation_after_open_counterexample :
  (ra_max Sample.inverted <=? ra_min Sample.inverted)%float = true
  /\ trace (fst (run Reference.runtime (Sample.answers []) Sample.inverted))
     = [EvOpen "gcat.dat"; EvPrint (MsgInvalidWindow 1 0 (-0.5) 0.5)]
  /\ trace (fst (run Reference.runtime Sample.no_file Sample.inverted))
     = [EvOpenFailed "gcat.dat"; EvPrint (MsgCannotOpen "gcat.dat"); EvPrint MsgIOError].
Proof. repeat split; reflexivity. Qed.










(** C7.  The query text is the call of
    [GalaxySearchSpecColsConstraint2013] with [@RaSearch] and
    [@DecSearch] the halves of [ra_min + ra_max] and of
    [dec_min + dec_max], [@apertureRadius] the radius, [@ColumnNames]
    the column list without [galtileid] joined by commas, and an empty
    [@WhereClause]; a run that reaches the database sends this text, with
    the radius that [radius] computes, and nothing else. *)
Theorem query_calls_stored_procedure rt w a s1 s2 :
  open_ok w (output a) = true ->
  window_rejected a = false ->
  float_pow rt (ra_max a - ra_min a)%float 2 = Some s1 ->
  float_pow rt (dec_max a - dec_min a)%float 2 = Some s2 ->
  create_engine_ok w = true ->
  let text r :=
    "GalaxySearchSpecColsConstraint2013 @RaSearch = "
    +:+ fmt_f rt (0.5 * (ra_min a + ra_max a))%float
    +:+ ", @DecSearch = " +:+ fmt_f rt (0.5 * (dec_min a + dec_max a))%float
    +:+ ", @apertureRadius = " +:+ fmt_f rt r
    +:+ ", @ColumnNames = '"
    +:+ PyStr.join "," (List.filter (fun c => negb (String.eqb c "galtileid"))
                                    (PyStr.split "," columns))
    +:+ "', @WhereClause = ''" in
  (forall r, query rt a r = Some (text r))
  /\ exists r,
       (forall s, radius rt a s = (s, inr r))
       /\ List.filter is_execute (trace (fst (run rt w a))) = [EvExecute (text r)].
Proof.
  intros Ho Hw H1 H2 He text. split; [intros r; reflexivity|].
  exists (30 * sqrt (s1 + s2))%float. split.
  - intros s. exact (radius_spec rt a s1 s2 s H1 H2).
  - exact (run_executes_once rt w a s1 s2 Ho Hw H1 H2 He).
Qed.

Lemma query_calls_stored_procedure_witness :
  List.filter is_execute
    (trace (fst (run Reference.runtime (Sample.answers []) default_args)))
  = [EvExecute
       ("GalaxySearchSpecColsConstraint2013 @RaSearch = 0.500000, @DecSearch = 0.000000, "
        +:+ "@apertureRadius = 42.426407, "
        +:+ "@ColumnNames = 'ra,dec,redshift,fluxnorm_bulge,fluxnorm_disk,fluxnorm_agn,"
        +:+ "a_b,a_d,b_b,b_d,pa_bulge,pa_disk,u_ab,g_ab,r_ab,i_ab,z_ab,y_ab', "
        +:+ "@WhereClause = ''")].
Proof.
  destruct (query_calls_stored_procedure
              Reference.runtime (Sample.answers []) default_args 1%float 1%float
              eq_refl eq_refl eq_refl eq_refl eq_refl) as (_ & r & Hr & Hq).
  rewrite Hq. specialize (Hr init_state). apply (f_equal snd) in Hr. cbn [snd] in Hr.
  injection Hr as <-. reflexivity.
Defined.

(** C8.  In a run that enters the [try] statement: once the engine
    exists, whatever the query and the rows do, the session is closed
    and then the engine disposed after the last use of the database and
    before [main] returns or the exception leaves it, and a failing
    query leaves as [ExecuteError] right after the release; when the
    engine cannot be created, nothing of the database was acquired. *)
Theorem session_and_engine_released rt w a s1 s2 :
  open_ok w (output a) = true ->
  window_rejected a = false ->
  float_pow rt (ra_max a - ra_min a)%float 2 = Some s1 ->
  float_pow rt (dec_max a - dec_min a)%float 2 = Some s2 ->
  let q := query_text rt a (30 * sqrt (s1 + s2))%float in
  let tr := trace (fst (run rt w a)) in
  (create_engine_ok w = true ->
   exists pre ext post,
     tr = pre ++ [EvCreateEngine; EvCreateSession; EvExecute q] ++ ext
          ++ [EvSessionClose; EvEngineDispose] ++ post
     /\ forallb (fun e => negb (is_db_event e)) pre = true
     /\ forallb (fun e => negb (is_db_event e)) ext = true
     /\ (post = [] \/ post = [EvClose])
     /\ (forall e, snd (run rt w a) = inl e -> post = [])
     /\ (fetchall w q = None ->
         ext = [] /\ post = [] /\ snd (run rt w a) = inl ExecuteError))
  /\ (create_engine_ok w = false ->
      forallb (fun e => negb (is_db_event e)) tr = true).
Proof.
  intros Ho Hw H1 H2 q tr. subst tr. split; intros He.
  - destruct (run_connected rt w a s1 s2 Ho Hw H1 H2 He)
      as (ext & post & Ht & Hq & Hpost & Hexn & Hfail).
    exists (trace (ready a q)), ext, post. split; [exact Ht|].
    split; [|auto]. cbn [ready trace]. destruct (verbose a); reflexivity.
  - rewrite (run_no_engine rt w a s1 s2 Ho Hw H1 H2 He). cbn [fst ready trace].
    destruct (verbose a); reflexivity.
Qed.

Lemma session_and_engine_released_witness :
  snd (run Reference.runtime Sample.db_down default_args) = inl ExecuteError
  /\ exists pre q,
       trace (fst (run Reference.runtime Sample.db_down default_args))
       = pre ++ [EvExecute q; EvSessionClose; EvEngineDispose].
Proof.
  destruct (session_and_engine_released
              Reference.runtime Sample.db_down default_args 1%float 1%float
              eq_refl eq_refl eq_refl eq_refl) as [Hc _].
  destruct (Hc eq_refl) as (pre & ext & post & Htr & _ & _ & _ & _ & Hfail).
  destruct (Hfail eq_refl) as (-> & -> & Hres).
  split; [exact Hres|].
  exists (pre ++ [EvCreateEngine; EvCreateSession]). eexists.
  rewrite Htr, <- app_assoc. reflexivity.
Defined.





(** * Further properties *)

(** ** Vocabulary *)



Definition is_print (e : event) : bool :=
  match e with
  | EvPrint _ => true
  | _ => false
  end.

Definition is_close (e : event) : bool :=
  match e with
  | EvClose => true
  | _ => false
  end.

(** The events of the [try] body after the query is sent: lines of the
    output file, and text on standard output in verbose mode only. *)
Definition loud (a : args) (e : event) : bool :=
  is_write e || (verbose a && is_print e).

(** [m] only appends events that satisfy [P]. *)
Definition emits (P : event -> bool) {A} (m : M A) : Prop :=
  forall s, exists ext,
    trace (fst (m s)) = trace s ++ ext /\ forallb P ext = true.

(** The command line with [--verbose] set or cleared. *)
Definition with_verbose (b : bool) (a : args) : args :=
  mkArgs b (output a) (dec_min a) (dec_max a) (ra_min a) (ra_max a) (null_sub a).

(** ** Splitting and joining column lists *)














(** ** What a run can emit *)

Lemma emits_ret P {A} (x : A) : emits P (ret x).
Proof. intros s. exists []. now rewrite app_nil_r. Qed.

Lemma emits_raise P {A} e : emits P (@raise A e).
Proof. intros s. exists []. now rewrite app_nil_r. Qed.

Lemma emits_lift P {A} e (o : option A) : emits P (lift e o).
Proof. destruct o; [apply emits_ret|apply emits_raise]. Qed.

Lemma emits_get P {A} (f : state -> A) : emits P (get f).
Proof. intros s. exists []. now rewrite app_nil_r. Qed.

Lemma emits_bind P {A B} (m : M A) (k : A -> M B) :
  emits P m -> (forall x, emits P (k x)) -> emits P (bind m k).
Proof.
  intros Hm Hk s. unfold bind. destruct (Hm s) as (e1 & Ht & Hq).
  destruct (m s) as [s1 [e|x]]; cbn [fst] in *.
  - exists e1. auto.
  - destruct (Hk x s1) as (e2 & Ht2 & Hq2).
    exists (e1 ++ e2). now rewrite Ht2, Ht, app_assoc, forallb_app, Hq, Hq2.
Qed.

Lemma emits_modify P (f : state -> state) :
  (forall s, trace (f s) = trace s) -> emits P (modify f).
Proof. intros H s. exists []. unfold modify; cbn [fst]. now rewrite app_nil_r, H. Qed.

Lemma emits_emit (P : event -> bool) e : P e = true -> emits P (emit e).
Proof. intros He s. exists [e]. cbn. now rewrite He. Qed.

Lemma emits_when P b m : emits P m -> emits P (when b m).
Proof. destruct b; [auto|intros _; apply emits_ret]. Qed.

Lemma emits_for_each P {A} (l : list A) (body : A -> M unit) :
  (forall x, emits P (body x)) -> emits P (for_each l body).
Proof.
  intros H. induction l as [|x l IH]; [apply emits_ret|].
  apply emits_bind; auto.
Qed.

Lemma emits_collect P {A B} (f : A -> M B) (l : list A) :
  (forall x, emits P (f x)) -> emits P (collect f l).
Proof.
  intros H. induction l as [|x l IH]; [apply emits_ret|].
  cbn [collect]. apply emits_bind; [auto|]. intros y.
  apply emits_bind; [auto|]. intros ys. apply emits_ret.
Qed.

Lemma emits_count_null P col : emits P (count_null col).
Proof.
  unfold count_null.
  apply emits_bind; [apply emits_get|intros known].
  apply emits_bind; [apply emits_when, emits_modify; intros s; reflexivity|intros _].
  apply emits_bind.
  - intros s. exists []. rewrite app_nil_r. destruct (nulls s !! col); cbn; auto.
  - intros n. apply emits_modify. intros s; reflexivity.
Qed.

Lemma emits_sanitize P a cols : forall r, emits P (sanitize a cols r).
Proof.
  induction cols as [|col cols IH]; intros r; [apply emits_ret|].
  cbn [sanitize]. apply emits_bind; [apply emits_lift|]. intros [x|]; [apply IH|].
  apply emits_bind; [apply emits_count_null|]. intros _. apply IH.
Qed.

(** A row adds nothing but lines of the output file. *)
Lemma emits_process_row (P : event -> bool) rt a r :
  (forall line, P (EvWrite line) = true) -> emits P (process_row rt a r).
Proof.
  intros HP. unfold process_row.
  apply emits_bind; [apply emits_sanitize|]. intros r'.
  apply emits_bind; [apply emits_lift|]. intros v.
  apply emits_bind; [apply emits_lift|]. intros ra.
  apply emits_bind; [apply emits_lift|]. intros v'.
  apply emits_bind; [apply emits_lift|]. intros dec.
  destruct (outside a (recenter ra) dec).
  - apply emits_modify. intros s; reflexivity.
  - apply emits_bind; [apply emits_collect; intros c; apply emits_lift|]. intros cells.
    apply emits_bind; [apply emits_emit, HP|]. intros _.
    apply emits_modify. intros s; reflexivity.
Qed.

Lemma fetch_and_dump_events rt w a q s :
  create_engine_ok w = true ->
  exists ext,
    trace (fst (fetch_and_dump rt w a q s)) = trace (connected q s) ++ ext
    /\ forallb (loud a) ext = true.
Proof.
  intros H. rewrite (fetch_and_dump_connected rt w a q s H).
  destruct (fetchall w q) as [results|].
  - apply (emits_bind (loud a) (modify (set_nrows 0))).
    + apply emits_modify. intros s'; reflexivity.
    + intros _. apply emits_bind.
      * apply emits_for_each. intros r. apply emits_process_row. reflexivity.
      * intros _. unfold when, loud. destruct (verbose a); [|apply emits_ret].
        unfold print.
        apply emits_bind; [apply emits_get|intros n].
        apply emits_bind; [now apply emits_emit|intros _].
        apply emits_bind; [apply emits_get|intros counts].
        apply emits_bind; [apply emits_when; now apply emits_emit|intros _].
        apply emits_bind; [apply emits_get|intros c].
        now apply emits_emit.
  - exists []. now rewrite app_nil_r.
Qed.

(** The run when a square is out of range. *)
Lemma run_overflow rt w a :
  open_ok w (output a) = true ->
  window_rejected a = false ->
  float_pow rt (ra_max a - ra_min a)%float 2 = None
  \/ float_pow rt (dec_max a - dec_min a)%float 2 = None ->
  run rt w a = (mkState [EvOpen (output a)] false false ∅ 0 0, inl OverflowError).
Proof.
  intros Ho Hw Hp. unfold run, main. rewrite Ho. unfold window_rejected in Hw.
  cbn [negb]. unfold bind at 1, emit at 1. cbv beta iota. rewrite Hw.
  unfold bind at 1, radius, pow, bind, lift, ret, raise.
  destruct (float_pow rt (ra_max a - ra_min a)%float 2); [|reflexivity].
  destruct (float_pow rt (dec_max a - dec_min a)%float 2); [|reflexivity].
  destruct Hp; discriminate.
Qed.

(** The run once the engine exists, with what the [try] body emitted. *)
Lemma run_connected_events rt w a s1 s2 :
  open_ok w (output a) = true ->
  window_rejected a = false ->
  float_pow rt (ra_max a - ra_min a)%float 2 = Some s1 ->
  float_pow rt (dec_max a - dec_min a)%float 2 = Some s2 ->
  create_engine_ok w = true ->
  let q := query_text rt a (30 * sqrt (s1 + s2))%float in
  exists ext,
    forallb (loud a) ext = true
    /\ let tr := trace (ready a q) ++ [EvCreateEngine; EvCreateSession; EvExecute q]
                 ++ ext ++ [EvSessionClose; EvEngineDispose] in
       (exists e, snd (run rt w a) = inl e /\ trace (fst (run rt w a)) = tr)
       \/ (snd (run rt w a) = inr None /\ trace (fst (run rt w a)) = tr ++ [EvClose]).
Proof.
  intros Ho Hw H1 H2 He q. rewrite (run_query_stage rt w a s1 s2 Ho Hw H1 H2). fold q.
  destruct (fetch_and_dump_quiet rt w a q (ready a q) He) as (ext0 & _ & _ & Hen & Hse).
  destruct (fetch_and_dump_events rt w a q (ready a q) He) as (ext & Ht & Hl).
  exists ext. split; [exact Hl|]. cbv zeta.
  unfold try_finally. destruct (fetch_and_dump rt w a q (ready a q)) as [sb res].
  cbn [fst] in Ht, Hen, Hse. rewrite (finally_bound sb Hen Hse).
  destruct res as [e|[]]; cbn [fst snd closed released trace]; rewrite Ht;
    cbn [connected trace]; rewrite <- !app_assoc.
  - left. exists e. split; reflexivity.
  - right. split; reflexivity.
Qed.

Lemma forallb_existsb_false {A} (P Q : A -> bool) l :
  (forall x, P x = true -> Q x = false) ->
  forallb P l = true -> existsb Q l = false.
Proof.
  intros HPQ. induction l as [|x l IH]; [reflexivity|]. cbn.
  intros H. apply andb_true_iff in H as [Hx Hl]. now rewrite (HPQ x Hx), (IH Hl).
Qed.

Lemma forallb_filter_nil {A} (P Q : A -> bool) l :
  (forall x, P x = true -> Q x = false) ->
  forallb P l = true -> List.filter Q l = [].
Proof.
  intros HPQ. induction l as [|x l IH]; [reflexivity|]. cbn.
  intros H. apply andb_true_iff in H as [Hx Hl]. now rewrite (HPQ x Hx), (IH Hl).
Qed.

Lemma loud_not_db a e : loud a e = true -> is_db_event e = false.
Proof. unfold loud. destruct e, (verbose a); cbn; congruence. Qed.

Lemma loud_not_close a e : loud a e = true -> is_close e = false.
Proof. unfold loud. destruct e, (verbose a); cbn; congruence. Qed.

Lemma quiet_loud_not_print a e : verbose a = false -> loud a e = true -> is_print e = false.
Proof. unfold loud. intros ->. destruct e; cbn; congruence. Qed.

(** The paths of [main], by what the file system, the window, the
    power operator and the engine answer. *)
Ltac run_paths rt w a :=
  destruct (open_ok w (output a)) eqn:Ho;
  [ destruct (window_rejected a) eqn:Hw;
    [ rewrite (run_window_rejected rt w a Ho Hw)
    | destruct (float_pow rt (ra_max a - ra_min a)%float 2) as [s1|] eqn:H1;
      [ destruct (float_pow rt (dec_max a - dec_min a)%float 2) as [s2|] eqn:H2;
        [ destruct (create_engine_ok w) eqn:He;
          [ destruct (run_connected_events rt w a s1 s2 Ho Hw H1 H2 He)
              as (ext & Hloud & [(e & Hres & Htr) | (Hres & Htr)]);
            rewrite ?Hres, ?Htr
          | rewrite (run_no_engine rt w a s1 s2 Ho Hw H1 H2 He) ]
        | rewrite (run_overflow rt w a Ho Hw (or_intror H2)) ]
      | rewrite (run_overflow rt w a Ho Hw (or_introl H1)) ] ]
  | rewrite (run_open_failed rt w a Ho) ].

(** X2.  In every run the database is either left alone or used in one
    complete cycle: engine created, session created, one query sent,
    session closed, engine disposed, in this order. *)
Theorem database_used_in_one_cycle rt w a :
  let used := List.filter is_db_event (trace (fst (run rt w a))) in
  used = []
  \/ exists q,
       used = [EvCreateEngine; EvCreateSession; EvExecute q; EvSessionClose; EvEngineDispose].
Proof.
  cbv zeta. run_paths rt w a; cbn [fst trace ready].
  - now left.
  - right. eexists. rewrite !List.filter_app.
    rewrite (forallb_filter_nil _ _ ext (loud_not_db a) Hloud).
    destruct (verbose a); reflexivity.
  - right. eexists. rewrite !List.filter_app.
    rewrite (forallb_filter_nil _ _ ext (loud_not_db a) Hloud).
    destruct (verbose a); reflexivity.
  - left. destruct (verbose a); reflexivity.
  - now left.
  - now left.
  - now left.
Qed.

(** X3.  The output file is closed exactly in the runs where [main]
    falls off its end: after an early return or an exception
    [f.close()] is never reached. *)
Theorem file_closed_iff_main_completes rt w a :
  existsb is_close (trace (fst (run rt w a))) = true <-> snd (run rt w a) = inr None.
Proof.
  run_paths rt w a; cbn [fst snd trace ready]; try (split; discriminate).
  - rewrite !existsb_app.
    rewrite (forallb_existsb_false _ _ ext (loud_not_close a) Hloud).
    destruct (verbose a); split; discriminate.
  - rewrite !existsb_app. cbn [existsb is_close]. rewrite !orb_true_r. tauto.
  - destruct (verbose a); split; discriminate.
Qed.

(** X4.  Without [--verbose], a run that opens the output file and
    accepts the window prints nothing on standard output, whatever the
    power operator, the engine, the query and the rows do. *)
Theorem silent_unless_verbose rt w a :
  verbose a = false ->
  open_ok w (output a) = true ->
  window_rejected a = false ->
  existsb is_print (trace (fst (run rt w a))) = false.
Proof.
  intros Hv Hopen Hwin.
  run_paths rt w a; try congruence; cbn [fst trace ready]; rewrite ?Hv; try reflexivity.
  - rewrite !existsb_app.
    now rewrite (forallb_existsb_false _ _ ext (fun e => quiet_loud_not_print a e Hv) Hloud).
  - rewrite !existsb_app.
    now rewrite (forallb_existsb_false _ _ ext (fun e => quiet_loud_not_print a e Hv) Hloud).
Qed.

Lemma silent_unless_verbose_witness :
  existsb is_print
    (trace (fst (run Reference.runtime
                   (Sample.answers [Sample.far_row; Sample.plain_row]) default_args)))
  = false.
Proof.
  apply (silent_unless_verbose
           Reference.runtime (Sample.answers [Sample.far_row; Sample.plain_row])
           default_args); reflexivity.
Defined.

(** ** Runs that fetch rows *)



Lemma file_lines_prints a n m c : file_lines (summary a n m c) = [].
Proof. unfold summary. destruct (verbose a), (nonempty m); reflexivity. Qed.








(** ** Runs that fail *)

(** X8.  When the engine cannot be created, the [finally] clause names
    the local [session] before it was ever assigned: the error that
    leaves [main] is this UnboundLocalError, not the engine's; the
    header is already in the file, nothing was asked of the database
    and the file is not closed. *)
Theorem engine_failure_is_masked rt w a s1 s2 :
  open_ok w (output a) = true ->
  window_rejected a = false ->
  float_pow rt (ra_max a - ra_min a)%float 2 = Some s1 ->
  float_pow rt (dec_max a - dec_min a)%float 2 = Some s2 ->
  create_engine_ok w = false ->
  snd (run rt w a) = inl (UnboundLocalError "session")
  /\ file_lines (trace (fst (run rt w a))) = [header]
  /\ existsb is_db_event (trace (fst (run rt w a))) = false
  /\ existsb is_close (trace (fst (run rt w a))) = false.
Proof.
  intros Ho Hw H1 H2 He. rewrite (run_no_engine rt w a s1 s2 Ho Hw H1 H2 He).
  cbn [fst snd ready trace]. destruct (verbose a); repeat split; reflexivity.
Qed.

Lemma engine_failure_is_masked_witness :
  snd (run Reference.runtime (mkWorld (fun _ => true) false (fun _ => Some []))
         default_args)
  = inl (UnboundLocalError "session").
Proof.
  apply (engine_failure_is_masked
           Reference.runtime (mkWorld (fun _ => true) false (fun _ => Some []))
           default_args 1%float 1%float); reflexivity.
Defined.

(** X9.  When one of the two squares of the radius is out of range,
    [main] leaves with OverflowError right after opening the output
    file: the file is left created or truncated and empty, nothing is
    printed and nothing is asked of the database. *)
Theorem overflow_aborts_before_header rt w a :
  open_ok w (output a) = true ->
  window_rejected a = false ->
  float_pow rt (ra_max a - ra_min a)%float 2 = None
  \/ float_pow rt (dec_max a - dec_min a)%float 2 = None ->
  snd (run rt w a) = inl OverflowError
  /\ trace (fst (run rt w a)) = [EvOpen (output a)].
Proof.
  intros Ho Hw Hp. rewrite (run_overflow rt w a Ho Hw Hp). split; reflexivity.
Qed.

Lemma overflow_aborts_before_header_witness :
  snd (run Reference.runtime (Sample.answers [Sample.plain_row]) Sample.huge)
  = inl OverflowError
  /\ trace (fst (run Reference.runtime (Sample.answers [Sample.plain_row]) Sample.huge))
     = [EvOpen "gcat.dat"].
Proof.
  apply (overflow_aborts_before_header
           Reference.runtime (Sample.answers [Sample.plain_row]) Sample.huge);
    [reflexivity|reflexivity|left; reflexivity].
Defined.

(** X10.  The script exits with status 0 when the output file cannot be
    opened and when the window is rejected: [main] returns -2 there,
    and the value of [main()] is dropped. *)
Theorem error_returns_exit_with_zero rt w a :
  open_ok w (output a) = false \/ window_rejected a = true ->
  snd (run rt w a) = inr (Some (-2)%Z) /\ exit_status rt w a = 0%Z.
Proof.
  intros H. unfold exit_status. destruct (open_ok w (output a)) eqn:Ho.
  - destruct H as [H|Hw]; [discriminate|].
    rewrite (run_window_rejected rt w a Ho Hw). split; reflexivity.
  - rewrite (run_open_failed rt w a Ho). split; reflexivity.
Qed.

Lemma error_returns_exit_with_zero_witness :
  snd (run Reference.runtime Sample.no_file default_args) = inr (Some (-2)%Z)
  /\ exit_status Reference.runtime Sample.no_file default_args = 0%Z.
Proof.
  apply (error_returns_exit_with_zero Reference.runtime Sample.no_file default_args).
  left. reflexivity.
Defined.

(** X11.  When the query fails, the output file is left with the header
    as its only line and is not closed; the session and the engine are
    released and the failure leaves [main]. *)
Theorem failed_query_leaves_header_only rt w a s1 s2 :
  open_ok w (output a) = true ->
  window_rejected a = false ->
  float_pow rt (ra_max a - ra_min a)%float 2 = Some s1 ->
  float_pow rt (dec_max a - dec_min a)%float 2 = Some s2 ->
  create_engine_ok w = true ->
  fetchall w (query_text rt a (30 * sqrt (s1 + s2))%float) = None ->
  snd (run rt w a) = inl ExecuteError
  /\ file_lines (trace (fst (run rt w a))) = [header]
  /\ existsb is_close (trace (fst (run rt w a))) = false.
Proof.
  intros Ho Hw H1 H2 He Hq.
  destruct (run_connected rt w a s1 s2 Ho Hw H1 H2 He)
    as (ext & post & Ht & _ & _ & _ & Hfail).
  destruct (Hfail Hq) as (-> & -> & Hres). rewrite Ht. cbn [ready trace].
  split; [exact Hres|]. destruct (verbose a); split; reflexivity.
Qed.

Lemma failed_query_leaves_header_only_witness :
  file_lines (trace (fst (run Reference.runtime Sample.db_down default_args))) = [header].
Proof.
  apply (failed_query_leaves_header_only
           Reference.runtime Sample.db_down default_args 1%float 1%float);
    reflexivity.
Defined.

(** ** More on the NULL filter and the window test *)










(** ** NaN in the window test *)

Lemma SFcompare_self (p : spec_float) :
  p = S754_nan \/ SFcompare p p = Some Eq.
Proof.
  destruct p as [s|s| |s m e]; [right|right|left|right]; try destruct s; cbn;
    rewrite ?Z.compare_refl, ?Pos.compare_cont_refl; reflexivity.
Qed.

Lemma is_nan_spec (x : float) : is_nan x = true -> Prim2SF x = S754_nan.
Proof.
  unfold is_nan. rewrite FloatAxioms.eqb_spec. unfold SFeqb. intros H.
  destruct (SFcompare_self (Prim2SF x)) as [E|E]; [exact E|].
  rewrite E in H. discriminate.
Qed.

(** No order comparison holds of a NaN. *)
Lemma nan_unordered (x y : float) :
  is_nan x = true ->
  (x <? y)%float = false /\ (y <? x)%float = false
  /\ (x <=? y)%float = false /\ (y <=? x)%float = false.
Proof.
  intros H. apply is_nan_spec in H.
  rewrite !ltb_spec, !leb_spec. unfold SFltb, SFleb. rewrite H.
  destruct (Prim2SF y); repeat split; reflexivity.
Qed.

(** X14.  A window whose four bounds are NaN, which [float] accepts on
    the command line, is not rejected by [main], and no row is clipped
    against it. *)
Theorem nan_window_clips_nothing a :
  is_nan (ra_min a) = true ->
  is_nan (ra_max a) = true ->
  is_nan (dec_min a) = true ->
  is_nan (dec_max a) = true ->
  window_rejected a = false
  /\ (forall ra dec, outside a ra dec = false)
  /\ (forall rows, kept a rows = rows).
Proof.
  intros Hra Hra' Hdec Hdec'.
  assert (Hout : forall ra dec, outside a ra dec = false).
  { intros ra dec. unfold outside.
    destruct (nan_unordered (ra_min a) ra Hra) as (_ & -> & _).
    destruct (nan_unordered (ra_max a) ra Hra') as (-> & _).
    destruct (nan_unordered (dec_min a) dec Hdec) as (_ & -> & _).
    destruct (nan_unordered (dec_max a) dec Hdec') as (-> & _).
    reflexivity. }
  split; [|split; [exact Hout|]].
  - unfold window_rejected.
    destruct (nan_unordered (ra_min a) (ra_max a) Hra) as (_ & _ & _ & ->).
    destruct (nan_unordered (dec_min a) (dec_max a) Hdec) as (_ & _ & _ & ->).
    reflexivity.
  - intros rows. unfold kept. induction rows as [|r rows IH]; [reflexivity|].
    cbn [List.filter]. unfold clipped at 1. rewrite Hout. cbn [negb]. now rewrite IH.
Qed.

Lemma nan_window_clips_nothing_witness :
  window_rejected
    (mkArgs false "gcat.dat" PrimFloat.nan PrimFloat.nan PrimFloat.nan PrimFloat.nan
            (-1)%float) = false.
Proof.
  apply (nan_window_clips_nothing
           (mkArgs false "gcat.dat" PrimFloat.nan PrimFloat.nan PrimFloat.nan PrimFloat.nan
                   (-1)%float)); reflexivity.
Defined.



(** ** The verbose flag *)

Lemma counted_all_unique rows (m m1 m2 : gmap string nat) :
  counted_all rows m m1 -> counted_all rows m m2 -> m1 = m2.
Proof. intros H1 H2. apply map_eq. intros c. now rewrite (H1 c), (H2 c). Qed.

Lemma summary_no_db a n m c : List.filter is_db_event (summary a n m c) = [].
Proof. unfold summary. destruct (verbose a), (nonempty m); reflexivity. Qed.

(** X16.  For a run whose query answers with rows that have every
    column, [--verbose] changes standard output only: the value of
    [main], the lines of the output file, what is asked of the database
    and the final counters are the same with and without it. *)
Theorem verbose_changes_only_stdout rt w a s1 s2 rows :
  open_ok w (output a) = true ->
  window_rejected a = false ->
  float_pow rt (ra_max a - ra_min a)%float 2 = Some s1 ->
  float_pow rt (dec_max a - dec_min a)%float 2 = Some s2 ->
  create_engine_ok w = true ->
  fetchall w (query_text rt a (30 * sqrt (s1 + s2))%float) = Some rows ->
  forallb has_columns rows = true ->
  let plain := run rt w (with_verbose false a) in
  let chatty := run rt w (with_verbose true a) in
  snd plain = snd chatty
  /\ file_lines (trace (fst plain)) = file_lines (trace (fst chatty))
  /\ List.filter is_db_event (trace (fst plain))
     = List.filter is_db_event (trace (fst chatty))
  /\ nulls (fst plain) = nulls (fst chatty)
  /\ clipCount (fst plain) = clipCount (fst chatty)
  /\ nrows (fst plain) = nrows (fst chatty).
Proof.
  intros Ho Hw H1 H2 He Hq Hrows plain chatty. subst plain chatty.
  destruct (run_rows rt w (with_verbose false a) s1 s2 rows Ho Hw H1 H2 He Hq Hrows)
    as (m1 & Hm1 & ->).
  destruct (run_rows rt w (with_verbose true a) s1 s2 rows Ho Hw H1 H2 He Hq Hrows)
    as (m2 & Hm2 & ->).
  rewrite (counted_all_unique rows ∅ m1 m2 Hm1 Hm2). cbv zeta.
  cbn [fst snd trace nulls clipCount nrows ready with_verbose verbose].
  split; [reflexivity|]. split; [|split; [|repeat split; reflexivity]].
  - rewrite !file_lines_app, !file_lines_prints. reflexivity.
  - rewrite !List.filter_app, !summary_no_db. reflexivity.
Qed.

Lemma verbose_changes_only_stdout_witness :
  file_lines
    (trace (fst (run Reference.runtime (Sample.answers [Sample.plain_row; Sample.far_row])
                   (with_verbose false default_args))))
  = file_lines
      (trace (fst (run Reference.runtime (Sample.answers [Sample.plain_row; Sample.far_row])
                     (with_verbose true default_args)))).
Proof.
  apply (verbose_changes_only_stdout
           Reference.runtime (Sample.answers [Sample.plain_row; Sample.far_row])
           default_args 1%float 1%float [Sample.plain_row; Sample.far_row]);
    reflexivity.
Defined.
